(** * elib_wx: the abstract weather class [WeatherABC]

    A shallow embedding of [elib_wx/weather_abc.py].  The class declares the
    typed fields of a weather report, a validated [station_icao] property,
    two text renderers that delegate to one abstract renderer, and a set of
    abstract methods left to the concrete subclass.

    Python attributes that may be missing on an instance are [option]
    fields.  Methods are computations over a world holding the instance, the
    heap of mission objects and the file system; an exception ends the
    computation and keeps every mutation made before it was raised.  Calls
    to external collaborators are recorded as events. *)

From stdpp Require Import base strings list gmap.
From Stdlib Require Import ZArith.

Local Open Scope Z_scope.

(** ** Exceptions *)

Inductive Exn : Type :=
  | BadStation (station : string)
  | MissionReadError (path : string)
  | MissionWriteError (path : string)
  | RangeError.

(** ** Data model *)

(** [avwx.structs.Cloud]: a cloud layer; the altitude is kept in feet. *)
Record Cloud : Type := MkCloud {
  cloud_type : string;
  cloud_altitude : Z
}.

(** The annotated attributes of [WeatherABC].  [_station_icao] and
    [station_name] are only created by the [station_icao] setter, so an
    instance may lack them; [wind_direction_is_variable] is the one
    attribute with a class-level default.  [metar_data] and [metar_units]
    hold structures of the METAR parser and are not inspected by this
    class. *)
Record WeatherFields : Type := MkWeather {
  source : string;
  source_type : string;
  _station_icao : option string;
  station_name : option string;
  raw_metar_str : string;
  altimeter : Z;
  cloud_layers : list Cloud;
  visibility : Z;
  temperature : Z;
  dew_point : Z;
  wind_speed : Z;
  wind_direction : Z;
  wind_direction_is_variable : bool;
  wind_direction_range : list Z;
  wind_gust : Z;
  date_time : Z;
  other : list string;
  remarks : string
}.

Definition with_station_icao (value : string) (w : WeatherFields) : WeatherFields :=
  MkWeather (source w) (source_type w) (Some value) (station_name w)
    (raw_metar_str w) (altimeter w) (cloud_layers w) (visibility w)
    (temperature w) (dew_point w) (wind_speed w) (wind_direction w)
    (wind_direction_is_variable w) (wind_direction_range w) (wind_gust w)
    (date_time w) (other w) (remarks w).

Definition with_station_name (name : string) (w : WeatherFields) : WeatherFields :=
  MkWeather (source w) (source_type w) (_station_icao w) (Some name)
    (raw_metar_str w) (altimeter w) (cloud_layers w) (visibility w)
    (temperature w) (dew_point w) (wind_speed w) (wind_direction w)
    (wind_direction_is_variable w) (wind_direction_range w) (wind_gust w)
    (date_time w) (other w) (remarks w).

(** Modelled from the spec: [weather_dcs.DCSWeather] is not among the
    sources; the simulator-ready weather value is the table of simulator
    settings it carries. *)
Definition DCSWeather : Type := gmap string Z.

(** Modelled from the spec: [elib_miz.Mission] is external; the in-memory
    mission is its weather fields and the remaining mission content. *)
Record Mission : Type := MkMission {
  mission_weather : DCSWeather;
  mission_content : gmap string string
}.

(** The world a method runs in: the instance [self], the heap of mission
    objects (a Python argument is a reference into it) and the files. *)
Record World : Type := MkWorld {
  self : WeatherFields;
  missions : gmap positive Mission;
  files : gmap string (list Byte.byte)
}.

Definition set_self (w : WeatherFields) (s : World) : World :=
  MkWorld w (missions s) (files s).

(** The world once [self._station_icao = value] has run: the state in
    which the setter hands over to [_set_station_name]. *)
Definition stored (value : string) (s : World) : World :=
  set_self (with_station_icao value (self s)) s.

(** ** Events and the method monad *)

Inductive Event : Type :=
  | EvValidStation (station : string)
  | EvStationLookup (station : string).

Record Outcome (A : Type) : Type := MkOutcome {
  res : Exn + A;
  world : World;
  events : list Event
}.
Arguments MkOutcome {A} _ _ _.
Arguments res {A} _.
Arguments world {A} _.
Arguments events {A} _.

Definition M (A : Type) : Type := World -> Outcome A.

Definition ret {A} (a : A) : M A := fun s => MkOutcome (inr a) s [].

Definition raise {A} (e : Exn) : M A := fun s => MkOutcome (inl e) s [].

Definition bind {A B} (m : M A) (k : A -> M B) : M B := fun s =>
  let o := m s in
  match res o with
  | inl e => MkOutcome (inl e) (world o) (events o)
  | inr a =>
      let o' := k a (world o) in
      MkOutcome (res o') (world o') (events o ++ events o')
  end.

Definition emit (ev : Event) : M unit := fun s => MkOutcome (inr tt) s [ev].

Definition get_self : M WeatherFields := fun s => MkOutcome (inr (self s)) s [].

Definition modify_self (f : WeatherFields -> WeatherFields) : M unit :=
  fun s => MkOutcome (inr tt) (set_self (f (self s)) s) [].

Definition lift {A} (r : Exn + A) : M A := fun s => MkOutcome r s [].

Declare Scope method_scope.
Delimit Scope method_scope with method.
Notation "x <- m ;; k" := (bind m (fun x => k))
  (at level 100, m at next level, right associativity) : method_scope.
Notation "m ;; k" := (bind m (fun _ => k))
  (at level 100, right associativity) : method_scope.
Local Open Scope method_scope.

(** The abstract methods the concrete part of the class calls on [self]:
    the method table a subclass provides. *)
Record WeatherABC : Type := MkWeatherABC {
  _set_station_name : M unit;
  _as_str : bool -> M string
}.

(** [elib_wx.Config]: the process-wide settings this class reads. *)
Record Config : Type := MkConfig {
  dummy_icao_code : string
}.

Section WeatherABC.

Variable config : Config.

(** [avwx.core.valid_station]: returns nothing, raises for a bad code. *)
Variable valid_station : string -> Exn + unit.

Variable cls : WeatherABC.

(** [station_icao] (getter): the missing attribute is the
    [AttributeError] branch. *)
Definition station_icao : M string :=
  w <- get_self ;;
  match _station_icao w with
  | Some icao => ret icao
  | None => ret (dummy_icao_code config)
  end.

Definition call_valid_station (value : string) : M unit :=
  emit (EvValidStation value) ;; lift (valid_station value).

(** [station_icao] (setter). *)
Definition station_icao_setter (value : string) : M unit :=
  (if bool_decide (value <> dummy_icao_code config)
   then call_valid_station value
   else ret tt) ;;
  modify_self (with_station_icao value) ;;
  _set_station_name cls.

Definition as_str : M string := _as_str cls false.

Definition as_speech : M string := _as_str cls true.

End WeatherABC.

(** ** The concrete subclass

    The abstract methods have no body in [weather_abc.py]; their
    implementations below follow the contract the class documents for
    them. *)

(** The sub-renderers of the text rendering family, one per abstract
    [_*_as_str] method; each is a function of the instance's fields. *)
Record Renderers : Type := MkRenderers {
  _make_str_intro : WeatherFields -> bool -> string;
  _wind_as_str : WeatherFields -> bool -> string;
  _visibility_as_str : WeatherFields -> bool -> string;
  _temperature_as_str : WeatherFields -> bool -> string;
  _dew_point_as_str : WeatherFields -> bool -> string;
  _altimeter_as_str : WeatherFields -> bool -> string;
  _clouds_as_str : WeatherFields -> bool -> string;
  _remarks_as_str : WeatherFields -> bool -> string;
  _others_as_str : WeatherFields -> string
}.

(** The external collaborators of the subclass: the station database, the
    CAVOK thresholds, the conversion to simulator weather and the mission
    archive codec. *)
Record Collaborators : Type := MkCollaborators {
  station_names : gmap string string;
  cavok_visibility : Z;
  cavok_cloud_base : Z;
  generate_dcs_weather : WeatherFields -> Exn + DCSWeather;
  miz_decode : list Byte.byte -> option Mission;
  miz_encode : Mission -> list Byte.byte
}.

Definition unknown_station : string := "unknown station".

(** The name the station database gives a code, or the sentinel. *)
Definition station_name_of (ext : Collaborators) (icao : string) : string :=
  default unknown_station (station_names ext !! icao).

Section Weather.

Variable config : Config.
Variable ext : Collaborators.
Variable rnd : Renderers.

(** Modelled from the spec: [_set_station_name] is abstract; it sets the
    name of the airport from the ICAO code, and "unknown station" if the
    code is not found in the database. *)
Definition Weather_set_station_name : M unit :=
  icao <- station_icao config ;;
  emit (EvStationLookup icao) ;;
  modify_self (with_station_name (station_name_of ext icao)).

(** The intro and the sub-renderings of wind, visibility, temperature, dew
    point, altimeter, clouds, remarks and other, assembled into one
    string. *)
Definition render (w : WeatherFields) (spoken : bool) : string :=
  _make_str_intro rnd w spoken +:+ " " +:+
  String.concat " "
    [ _wind_as_str rnd w spoken;
      _visibility_as_str rnd w spoken;
      _temperature_as_str rnd w spoken;
      _dew_point_as_str rnd w spoken;
      _altimeter_as_str rnd w spoken;
      _clouds_as_str rnd w spoken;
      _remarks_as_str rnd w spoken;
      _others_as_str rnd w ].

(** Modelled from the spec: [_as_str] is abstract; both renderings are the
    intro followed by the body, built from the instance's fields by the
    sub-renderers, with [spoken] selecting the speech-oriented wording. *)
Definition Weather_as_str (spoken : bool) : M string :=
  w <- get_self ;; ret (render w spoken).

(** The method table of the concrete subclass. *)
Definition Weather : WeatherABC :=
  MkWeatherABC Weather_set_station_name Weather_as_str.

Definition cloud_below_threshold (c : Cloud) : bool :=
  bool_decide (cloud_altitude c < cavok_cloud_base ext).

(** Modelled from the spec: [is_cavok] is abstract; it is true iff the
    visibility is at or above the threshold, no cloud layer is below the
    cloud threshold and no significant weather phenomenon is present. *)
Definition is_cavok (w : WeatherFields) : bool :=
  bool_decide (cavok_visibility ext <= visibility w)
  && negb (existsb cloud_below_threshold (cloud_layers w))
  && match other w with [] => true | _ :: _ => false end.

(** Creating a mission object: it is stored at a location not in use. *)
Definition new_mission (m : Mission) : M positive := fun s =>
  let l := fresh (dom (missions s)) in
  MkOutcome (inr l) (MkWorld (self s) (<[l := m]> (missions s)) (files s)) [].

(** Dereferencing a mission object; a reference that is not on the heap
    does not occur for an argument passed by a caller. *)
Definition get_mission (l : positive) : M Mission := fun s =>
  match missions s !! l with
  | Some m => MkOutcome (inr m) s []
  | None => MkOutcome (inl (MissionReadError "")) s []
  end.

(** Modelled from the spec: [apply_to_mission_dict] is abstract; it
    generates the simulator weather from [self] and returns a new mission
    with the weather fields overwritten, without mutating its argument. *)
Definition apply_to_mission_dict (mission : positive) : M positive :=
  w <- get_self ;;
  dcs <- lift (generate_dcs_weather ext w) ;;
  m <- get_mission mission ;;
  new_mission (MkMission dcs (mission_content m)).

Definition file_exists (path : string) : M bool := fun s =>
  MkOutcome (inr (bool_decide (is_Some (files s !! path)))) s [].

Definition read_miz (path : string) : M Mission := fun s =>
  match files s !! path with
  | None => MkOutcome (inl (MissionReadError path)) s []
  | Some bytes =>
      match miz_decode ext bytes with
      | None => MkOutcome (inl (MissionReadError path)) s []
      | Some m => MkOutcome (inr m) s []
      end
  end.

Definition write_miz (path : string) (m : Mission) : M unit := fun s =>
  MkOutcome (inr tt)
    (MkWorld (self s) (missions s) (<[path := miz_encode ext m]> (files s))) [].

(** Modelled from the spec: [apply_to_miz] is abstract; it fails if
    [out_file] exists and [overwrite] is false, reads the mission archive
    from [source_file] (failing if it cannot be read or parsed), applies
    the weather and writes the result to [out_file]. *)
Definition apply_to_miz (source_file out_file : string) (overwrite : bool) : M unit :=
  present <- file_exists out_file ;;
  if present && negb overwrite then raise (MissionWriteError out_file)
  else
    m <- read_miz source_file ;;
    l <- new_mission m ;;
    l' <- apply_to_mission_dict l ;;
    m' <- get_mission l' ;;
    write_miz out_file m'.

End Weather.

(** ** A concrete configuration, used to run the methods *)

Definition xxxx_config : Config := MkConfig "XXXX".

(** Modelled from the spec: an ICAO code is a 4-letter station identifier;
    the validator raises for any other length. *)
Definition four_letter_station (value : string) : Exn + unit :=
  if bool_decide (String.length value = 4%nat) then inr tt
  else inl (BadStation value).

Definition plain_mission : Mission :=
  MkMission {[ "qnh" := 760 ]} {[ "theatre" := "Caucasus" ]}.

Definition demo_collaborators : Collaborators :=
  MkCollaborators
    {[ "UGTB" := "Tbilisi Lochini" ]}
    10000
    5000
    (fun w => if bool_decide (0 <= visibility w)
              then inr {[ "visibility" := visibility w; "qnh" := altimeter w ]}
              else inl RangeError)
    (fun bytes => match bytes with
                  | [Byte.x50; Byte.x4b] => Some plain_mission
                  | _ => None
                  end)
    (fun m => [Byte.x50; Byte.x4b; Byte.x03]).

Definition demo_renderers : Renderers :=
  MkRenderers
    (fun w spoken => if spoken then "Weather for " +:+ source w
                     else "Weather: " +:+ source w)
    (fun _ spoken => if spoken then "wind calm" else "00000KT")
    (fun _ spoken => if spoken then "visibility ten kilometers" else "9999")
    (fun _ spoken => if spoken then "temperature one five" else "15")
    (fun _ spoken => if spoken then "dew point one zero" else "10")
    (fun _ spoken => if spoken then "altimeter one zero one three" else "Q1013")
    (fun _ spoken => if spoken then "sky clear" else "SKC")
    (fun w _ => remarks w)
    (fun _ => "").

Definition demo_weather : WeatherABC := Weather xxxx_config demo_collaborators demo_renderers.

Definition blank_weather : WeatherFields :=
  MkWeather "test" "METAR" None None "" 1013 [] 10000 15 10 0 0 false [] 0 0 [] "".

Definition blank_world : World := MkWorld blank_weather ∅ ∅.

Definition mission_world : World :=
  MkWorld blank_weather {[ 1%positive := plain_mission ]}
    {[ "in.miz" := [Byte.x50; Byte.x4b]; "out.miz" := [Byte.x00] ]}.

(** ** Attribute access and [__repr__]

    [__repr__] works on the instance as Python sees it: a class name, the
    annotations of the instance's class in the order of the class body, the
    attributes the class itself holds and the attributes the instance
    holds. *)

Inductive Value : Type :=
  | VStr (s : string)
  | VNum (n : Z)
  | VBool (b : bool)
  | VNums (l : list Z)
  | VStrs (l : list string)
  | VClouds (l : list Cloud)
  | VData (description : string).

Inductive AttributeError : Type :=
  | NoAttribute (attr_name : string).

Record PyObject : Type := MkObject {
  class_name : string;
  class_annotations : list string;
  class_attrs : gmap string Value;
  instance_attrs : gmap string Value
}.

(** [getattr(self, attr_name)] for a data attribute: the instance first,
    then the class, else [AttributeError]. *)
Definition getattr (obj : PyObject) (attr_name : string) : AttributeError + Value :=
  match instance_attrs obj !! attr_name with
  | Some v => inr v
  | None =>
      match class_attrs obj !! attr_name with
      | Some v => inr v
      | None => inl (NoAttribute attr_name)
      end
  end.

(** [not attr_name.startswith('_')]. *)
Definition is_public (attr_name : string) : bool :=
  negb (String.prefix "_" attr_name).

(** The dict comprehension of [__repr__]: the annotated names are visited
    in order, the private ones are skipped, and the first [getattr] that
    raises ends the comprehension. *)
Fixpoint repr_attrs (obj : PyObject) (names : list string)
  : AttributeError + list (string * Value) :=
  match names with
  | [] => inr []
  | attr_name :: rest =>
      if is_public attr_name then
        match getattr obj attr_name with
        | inl e => inl e
        | inr v =>
            match repr_attrs obj rest with
            | inl e => inl e
            | inr attrs => inr ((attr_name, v) :: attrs)
            end
        end
      else repr_attrs obj rest
  end.

Definition newline : string := String (Ascii.ascii_of_nat 10) EmptyString.

(** [__repr__]; [pformat] is [pprint.pformat]. *)
Definition __repr__ (pformat : list (string * Value) -> string) (obj : PyObject)
  : AttributeError + string :=
  match repr_attrs obj (class_annotations obj) with
  | inl e => inl e
  | inr attrs =>
      inr (class_name obj +:+ "(" +:+ newline +:+ pformat attrs +:+ newline +:+ ")")
  end.

(** The annotations of the class body of [WeatherABC], in order, and the
    one attribute the class body assigns. *)
Definition WeatherABC_annotations : list string :=
  [ "source"; "source_type"; "_station_icao"; "station_name"; "raw_metar_str";
    "metar_data"; "metar_units"; "altimeter"; "cloud_layers"; "visibility";
    "temperature"; "dew_point"; "wind_speed"; "wind_direction";
    "wind_direction_is_variable"; "wind_direction_range"; "wind_gust";
    "date_time"; "other"; "remarks" ].

Definition WeatherABC_class_attrs : gmap string Value :=
  {[ "wind_direction_is_variable" := VBool false ]}.

(** The public annotated attributes that only the instance can provide. *)
Definition WeatherABC_instance_public : list string :=
  [ "source"; "source_type"; "station_name"; "raw_metar_str";
    "metar_data"; "metar_units"; "altimeter"; "cloud_layers"; "visibility";
    "temperature"; "dew_point"; "wind_speed"; "wind_direction";
    "wind_direction_range"; "wind_gust"; "date_time"; "other"; "remarks" ].

Definition set_optional (attr_name : string) (v : option Value)
    (attrs : gmap string Value) : gmap string Value :=
  match v with
  | Some x => <[attr_name := x]> attrs
  | None => attrs
  end.

(** The attributes of an instance whose fields are [w]; the two structures
    of the METAR parser are given apart, as [w] does not hold them. *)
Definition fields_attrs (metar_data metar_units : option string)
    (w : WeatherFields) : gmap string Value :=
  set_optional "_station_icao" (VStr <$> _station_icao w)
  (set_optional "station_name" (VStr <$> station_name w)
  (set_optional "metar_data" (VData <$> metar_data)
  (set_optional "metar_units" (VData <$> metar_units)
  (<["source" := VStr (source w)]>
  (<["source_type" := VStr (source_type w)]>
  (<["raw_metar_str" := VStr (raw_metar_str w)]>
  (<["altimeter" := VNum (altimeter w)]>
  (<["cloud_layers" := VClouds (cloud_layers w)]>
  (<["visibility" := VNum (visibility w)]>
  (<["temperature" := VNum (temperature w)]>
  (<["dew_point" := VNum (dew_point w)]>
  (<["wind_speed" := VNum (wind_speed w)]>
  (<["wind_direction" := VNum (wind_direction w)]>
  (<["wind_direction_is_variable" := VBool (wind_direction_is_variable w)]>
  (<["wind_direction_range" := VNums (wind_direction_range w)]>
  (<["wind_gust" := VNum (wind_gust w)]>
  (<["date_time" := VNum (date_time w)]>
  (<["other" := VStrs (other w)]>
  (<["remarks" := VStr (remarks w)]> ∅))))))))))))))))))).

(** A [pformat] to run [__repr__] with: the attribute names, one per line. *)
Definition names_pformat (attrs : list (string * Value)) : string :=
  String.concat newline (attrs.*1).

(** A subclass whose [_set_station_name] fails without touching the
    instance. *)
Definition failing_lookup : WeatherABC :=
  MkWeatherABC (raise (BadStation "station database unavailable"))
    (fun _ => ret "").

Definition is_validation (ev : Event) : bool :=
  match ev with
  | EvValidStation _ => true
  | EvStationLookup _ => false
  end.

Definition named_weather : WeatherFields :=
  with_station_name "Tbilisi Lochini" (with_station_icao "UGTB" blank_weather).

(** Instances of a class that exposes the annotations of the [WeatherABC]
    body; [recoded_object] differs from [named_object] in a private and in
    an unannotated attribute only, and [bare_object] is an instance of a
    class that exposes no annotation. *)
Definition named_object : PyObject :=
  MkObject "Weather" WeatherABC_annotations WeatherABC_class_attrs
    (fields_attrs (Some "MetarData") (Some "Units") named_weather).

Definition blank_object : PyObject :=
  MkObject "Weather" WeatherABC_annotations WeatherABC_class_attrs
    (fields_attrs (Some "MetarData") (Some "Units") blank_weather).

Definition recoded_object : PyObject :=
  MkObject "Weather" WeatherABC_annotations WeatherABC_class_attrs
    (<["callsign" := VStr "Enfield"]>
       (fields_attrs (Some "MetarData") (Some "Units")
          (with_station_icao "UGKO" named_weather))).

Definition bare_object : PyObject :=
  MkObject "Weather" [] ∅
    (fields_attrs (Some "MetarData") (Some "Units") blank_weather).

Definition named_repr : string :=
  Eval vm_compute in
    match __repr__ names_pformat named_object with
    | inr text => text
    | inl _ => ""
    end.

(** * Properties *)

(** ** Shared facts about the method monad *)

Lemma outcome_eta {A} (o : Outcome A) : MkOutcome (res o) (world o) (events o) = o.
Proof. by destruct o. Qed.

Lemma bind_step {A B} (m : M A) (k : A -> M B) s a s' :
  m s = MkOutcome (inr a) s' [] -> bind m k s = k a s'.
Proof.
  intros Hm. unfold bind. rewrite Hm. simpl. apply outcome_eta.
Qed.

Lemma bind_fail {A B} (m : M A) (k : A -> M B) s e s' evs :
  m s = MkOutcome (inl e) s' evs -> bind m k s = MkOutcome (inl e) s' evs.
Proof.
  intros Hm. unfold bind. by rewrite Hm.
Qed.

(** ** The concrete methods of [WeatherABC], for any subclass *)

Section WeatherABC_properties.

Variable config : Config.
Variable valid_station : string -> Exn + unit.
Variable cls : WeatherABC.

Lemma setter_placeholder s :
  station_icao_setter config valid_station cls (dummy_icao_code config) s
  = _set_station_name cls (stored (dummy_icao_code config) s).
Proof.
  unfold station_icao_setter.
  rewrite bool_decide_eq_false_2 by (intros Hne; by apply Hne).
  rewrite (bind_step (ret tt) _ s tt s eq_refl).
  by rewrite (bind_step (modify_self _) _ s tt (stored (dummy_icao_code config) s) eq_refl).
Qed.

Lemma setter_validated value s :
  value <> dummy_icao_code config ->
  valid_station value = inr tt ->
  res (station_icao_setter config valid_station cls value s)
  = res (_set_station_name cls (stored value s))
  /\ world (station_icao_setter config valid_station cls value s)
     = world (_set_station_name cls (stored value s))
  /\ events (station_icao_setter config valid_station cls value s)
     = EvValidStation value :: events (_set_station_name cls (stored value s)).
Proof.
  intros Hne Hok.
  unfold station_icao_setter, call_valid_station, bind, lift, emit.
  rewrite bool_decide_eq_true_2 by done.
  simpl. rewrite Hok. simpl.
  by destruct (res (_set_station_name cls _)).
Qed.

Lemma setter_rejected value s e :
  value <> dummy_icao_code config ->
  valid_station value = inl e ->
  station_icao_setter config valid_station cls value s
  = MkOutcome (inl e) s [EvValidStation value].
Proof.
  intros Hne Hbad.
  unfold station_icao_setter, call_valid_station.
  rewrite bool_decide_eq_true_2 by done.
  apply bind_fail. unfold bind, lift, emit. simpl. by rewrite Hbad.
Qed.

(** C2: on an instance whose station identifier has never been assigned,
    reading [station_icao] raises nothing, changes nothing and returns
    exactly [Config.dummy_icao_code]. *)
Theorem station_icao_unset_is_dummy s :
  _station_icao (self s) = None ->
  station_icao config s = MkOutcome (inr (dummy_icao_code config)) s [].
Proof.
  intros Hunset. unfold station_icao.
  rewrite (bind_step get_self _ s (self s) s eq_refl).
  by rewrite Hunset.
Qed.

(** C3: for a value other than the placeholder the first thing the
    setter does is call station validation, and a code the validator
    rejects makes the setter raise at once with nothing stored; for the
    placeholder the setter is the store followed by the name update, with
    no validation call of its own. *)
Theorem station_icao_setter_validates_first value s :
  (value <> dummy_icao_code config ->
     head (events (station_icao_setter config valid_station cls value s))
     = Some (EvValidStation value)
     /\ forall e, valid_station value = inl e ->
          station_icao_setter config valid_station cls value s
          = MkOutcome (inl e) s [EvValidStation value])
  /\ (value = dummy_icao_code config ->
        station_icao_setter config valid_station cls value s
        = _set_station_name cls (stored value s)).
Proof.
  split.
  - intros Hne. split.
    + destruct (valid_station value) as [e | []] eqn:Hv.
      * by rewrite (setter_rejected _ _ e).
      * destruct (setter_validated value s Hne Hv) as (_ & _ & ->). done.
    + intros e He. by apply setter_rejected.
  - intros ->. apply setter_placeholder.
Qed.

(** C8: [as_str] is exactly [_as_str] with [spoken=False] and
    [as_speech] is exactly [_as_str] with [spoken=True]. *)
Theorem as_str_as_speech_delegate :
  as_str cls = _as_str cls false /\ as_speech cls = _as_str cls true.
Proof. split; reflexivity. Qed.

(** C10: when validation rejects a non-placeholder value the setter
    raises the validator's error and leaves the whole instance as it was:
    [_station_icao] keeps its previous value (or stays unset) and
    [station_name] is not recomputed. *)
Theorem station_icao_setter_atomic value s e :
  value <> dummy_icao_code config ->
  valid_station value = inl e ->
  res (station_icao_setter config valid_station cls value s) = inl e
  /\ world (station_icao_setter config valid_station cls value s) = s
  /\ _station_icao (self (world (station_icao_setter config valid_station cls value s)))
     = _station_icao (self s)
  /\ station_name (self (world (station_icao_setter config valid_station cls value s)))
     = station_name (self s)
  /\ events (station_icao_setter config valid_station cls value s)
     = [EvValidStation value].
Proof.
  intros Hne Hbad. by rewrite (setter_rejected _ _ e).
Qed.

End WeatherABC_properties.

(** ** The concrete subclass *)

Section Weather_properties.

Variable config : Config.
Variable valid_station : string -> Exn + unit.
Variable ext : Collaborators.
Variable rnd : Renderers.

Lemma set_station_name_after_store value s :
  Weather_set_station_name config ext (stored value s)
  = MkOutcome (inr tt)
      (set_self (with_station_name (station_name_of ext value)
                   (with_station_icao value (self s))) s)
      [EvStationLookup value].
Proof. reflexivity. Qed.

Lemma set_station_name_total s : res (Weather_set_station_name config ext s) = inr tt.
Proof.
  unfold Weather_set_station_name, station_icao, bind, get_self. simpl.
  by destruct (_station_icao (self s)).
Qed.

Ltac dispatch :=
  change (_set_station_name (Weather config ext rnd))
    with (Weather_set_station_name config ext) in *.

Lemma setter_succeeds_iff value s :
  res (station_icao_setter config valid_station (Weather config ext rnd) value s) = inr tt
  <-> value = dummy_icao_code config \/ valid_station value = inr tt.
Proof.
  destruct (decide (value = dummy_icao_code config)) as [-> | Hne].
  - rewrite setter_placeholder. dispatch. rewrite set_station_name_total. tauto.
  - destruct (valid_station value) as [e | []] eqn:Hv.
    + rewrite (setter_rejected _ _ _ _ _ e Hne Hv). simpl.
      split; [discriminate | intros [? | ?]; [done | discriminate]].
    + destruct (setter_validated config valid_station (Weather config ext rnd)
                  value s Hne Hv) as (-> & _).
      dispatch. rewrite set_station_name_total. tauto.
Qed.

Lemma setter_success_world value s :
  res (station_icao_setter config valid_station (Weather config ext rnd) value s) = inr tt ->
  world (station_icao_setter config valid_station (Weather config ext rnd) value s)
  = set_self (with_station_name (station_name_of ext value)
                (with_station_icao value (self s))) s.
Proof.
  intros Hok.
  destruct (decide (value = dummy_icao_code config)) as [-> | Hne].
  - rewrite setter_placeholder. dispatch. by rewrite set_station_name_after_store.
  - apply setter_succeeds_iff in Hok as [-> | Hv]; [done |].
    destruct (setter_validated config valid_station (Weather config ext rnd)
                value s Hne Hv) as (_ & -> & _).
    dispatch. by rewrite set_station_name_after_store.
Qed.

(** The placeholder never reaches the validator on the concrete subclass. *)
Lemma setter_placeholder_no_validation s v :
  EvValidStation v
  ∉ events (station_icao_setter config valid_station (Weather config ext rnd)
              (dummy_icao_code config) s).
Proof.
  rewrite setter_placeholder. dispatch.
  rewrite set_station_name_after_store. simpl.
  intros Hin. apply list_elem_of_singleton in Hin. discriminate.
Qed.

Lemma no_cloud_below_threshold (clouds : list Cloud) :
  existsb (cloud_below_threshold ext) clouds = false
  <-> forall c, c ∈ clouds -> ~ cloud_altitude c < cavok_cloud_base ext.
Proof.
  induction clouds as [| c cs IH]; simpl.
  - split; [intros _ c Hc; by apply not_elem_of_nil in Hc | done].
  - rewrite orb_false_iff, IH. unfold cloud_below_threshold at 1.
    rewrite bool_decide_eq_false. split.
    + intros [Hc Hcs] c' Hc'. apply elem_of_cons in Hc' as [-> | Hc']; auto.
    + intros Hall. split; [apply Hall; left | intros c' Hc'; apply Hall; by right].
Qed.

(** C1: [is_cavok] is true if and only if the visibility is at or above
    the CAVOK threshold, no cloud layer lies below the cloud threshold and
    [other] holds no weather phenomenon. *)
Theorem is_cavok_iff w :
  is_cavok ext w = true
  <-> cavok_visibility ext <= visibility w
      /\ (forall c, c ∈ cloud_layers w -> ~ cloud_altitude c < cavok_cloud_base ext)
      /\ other w = [].
Proof.
  unfold is_cavok.
  rewrite !andb_true_iff, bool_decide_eq_true, negb_true_iff, no_cloud_below_threshold.
  assert (Hother : match other w with [] => true | _ :: _ => false end = true
                   <-> other w = []) by (destruct (other w); split; done).
  rewrite Hother. tauto.
Qed.

(** C4: the setter succeeds exactly when the value is the placeholder or
    passes validation; every successful assignment stores the value and
    recomputes [station_name] from it: the name the station database holds
    for the new code, whatever the name was before, and "unknown station",
    instead of an exception, for a code the database does not know. *)
Theorem station_icao_setter_recomputes_name value s :
  (res (station_icao_setter config valid_station (Weather config ext rnd) value s) = inr tt
   <-> value = dummy_icao_code config \/ valid_station value = inr tt)
  /\ (res (station_icao_setter config valid_station (Weather config ext rnd) value s)
      = inr tt ->
      _station_icao (self (world
        (station_icao_setter config valid_station (Weather config ext rnd) value s)))
      = Some value
      /\ station_name (self (world
           (station_icao_setter config valid_station (Weather config ext rnd) value s)))
         = Some (station_name_of ext value)
      /\ (forall name, station_names ext !! value = Some name ->
          station_name (self (world
            (station_icao_setter config valid_station (Weather config ext rnd) value s)))
          = Some name)
      /\ (station_names ext !! value = None ->
          station_name (self (world
            (station_icao_setter config valid_station (Weather config ext rnd) value s)))
          = Some "unknown station")).
Proof.
  split; [apply setter_succeeds_iff |].
  intros Hok. rewrite (setter_success_world _ _ Hok). simpl.
  split; [done |]. split; [done |].
  unfold station_name_of.
  split; [intros name -> | intros ->]; done.
Qed.

Lemma new_mission_spec m s :
  let l := fresh (dom (missions s)) in
  new_mission m s
  = MkOutcome (inr l) (MkWorld (self s) (<[l := m]> (missions s)) (files s)) []
  /\ missions s !! l = None.
Proof.
  split; [reflexivity |].
  apply not_elem_of_dom, is_fresh.
Qed.

Lemma apply_to_mission_dict_ok mission m dcs s :
  missions s !! mission = Some m ->
  generate_dcs_weather ext (self s) = inr dcs ->
  apply_to_mission_dict ext mission s
  = new_mission (MkMission dcs (mission_content m)) s.
Proof.
  intros Hm Hdcs. unfold apply_to_mission_dict.
  rewrite (bind_step get_self _ s (self s) s eq_refl).
  rewrite (bind_step (lift _) _ s dcs s) by (unfold lift; by rewrite Hdcs).
  by rewrite (bind_step (get_mission mission) _ s m s)
    by (unfold get_mission; by rewrite Hm).
Qed.

Lemma apply_to_mission_dict_range mission e s :
  generate_dcs_weather ext (self s) = inl e ->
  apply_to_mission_dict ext mission s = MkOutcome (inl e) s [].
Proof.
  intros Hdcs. unfold apply_to_mission_dict.
  rewrite (bind_step get_self _ s (self s) s eq_refl).
  apply bind_fail. unfold lift. by rewrite Hdcs.
Qed.

(** C5: [apply_to_mission_dict] leaves its argument, and every other
    mission object, as it was; when the simulator weather can be generated
    it returns a mission object that did not exist before, whose content
    other than the weather fields is that of the argument; when it cannot,
    the error surfaces and nothing changes. *)
Theorem apply_to_mission_dict_frame mission m s :
  missions s !! mission = Some m ->
  missions (world (apply_to_mission_dict ext mission s)) !! mission = Some m
  /\ self (world (apply_to_mission_dict ext mission s)) = self s
  /\ files (world (apply_to_mission_dict ext mission s)) = files s
  /\ (forall e, generate_dcs_weather ext (self s) = inl e ->
       apply_to_mission_dict ext mission s = MkOutcome (inl e) s [])
  /\ (forall dcs, generate_dcs_weather ext (self s) = inr dcs ->
       exists l m',
         res (apply_to_mission_dict ext mission s) = inr l
         /\ l <> mission
         /\ missions s !! l = None
         /\ missions (world (apply_to_mission_dict ext mission s)) !! l = Some m'
         /\ mission_weather m' = dcs
         /\ mission_content m' = mission_content m
         /\ forall l', l' <> l ->
              missions (world (apply_to_mission_dict ext mission s)) !! l'
              = missions s !! l').
Proof.
  intros Hm.
  destruct (generate_dcs_weather ext (self s)) as [e | dcs] eqn:Hdcs.
  - rewrite (apply_to_mission_dict_range _ e) by done. simpl.
    repeat split; try done.
    intros e' [= <-]. done.
  - rewrite (apply_to_mission_dict_ok _ m dcs) by done.
    destruct (new_mission_spec (MkMission dcs (mission_content m)) s) as [-> Hfresh].
    simpl. set (l := fresh (dom (missions s))) in *.
    assert (Hne : l <> mission) by (intros ->; congruence).
    split; [by rewrite lookup_insert_ne |].
    split; [done |]. split; [done |]. split; [done |].
    intros dcs' [= <-].
    exists l, (MkMission dcs (mission_content m)).
    split; [done |]. split; [done |]. split; [done |].
    split; [by rewrite lookup_insert_eq |].
    split; [done |]. split; [done |].
    intros l' Hl'. by rewrite lookup_insert_ne.
Qed.

Lemma guard_off out_file overwrite s :
  ~ (is_Some (files s !! out_file) /\ overwrite = false) ->
  bool_decide (is_Some (files s !! out_file)) && negb overwrite = false.
Proof.
  intros Hguard. apply andb_false_iff.
  destruct overwrite; [by right | left].
  apply bool_decide_eq_false. intros Hex. by apply Hguard.
Qed.





Lemma apply_to_miz_writes source_file out_file overwrite s bytes m dcs :
  ~ (is_Some (files s !! out_file) /\ overwrite = false) ->
  files s !! source_file = Some bytes ->
  miz_decode ext bytes = Some m ->
  generate_dcs_weather ext (self s) = inr dcs ->
  res (apply_to_miz ext source_file out_file overwrite s) = inr tt
  /\ self (world (apply_to_miz ext source_file out_file overwrite s)) = self s
  /\ files (world (apply_to_miz ext source_file out_file overwrite s))
     = <[out_file := miz_encode ext (MkMission dcs (mission_content m))]> (files s).
Proof.
  intros Hguard Hfile Hdecode Hdcs.
  set (l := fresh (dom (missions s))).
  set (s1 := MkWorld (self s) (<[l := m]> (missions s)) (files s)).
  set (m' := MkMission dcs (mission_content m)).
  set (l' := fresh (dom (missions s1))).
  set (s2 := MkWorld (self s) (<[l' := m']> (missions s1)) (files s)).
  assert (Happly : apply_to_miz ext source_file out_file overwrite s
                   = write_miz ext out_file m' s2).
  { unfold apply_to_miz.
    rewrite (bind_step (file_exists out_file) _ s _ s eq_refl), (guard_off _ _ _ Hguard).
    rewrite (bind_step (read_miz ext source_file) _ s m s)
      by (unfold read_miz; by rewrite Hfile, Hdecode).
    rewrite (bind_step (new_mission m) _ s l s1 eq_refl).
    rewrite (bind_step (apply_to_mission_dict ext l) _ s1 l' s2)
      by (rewrite (apply_to_mission_dict_ok l m dcs s1);
          [reflexivity | apply lookup_insert_eq | done]).
    rewrite (bind_step (get_mission l') _ s2 m' s2)
      by (unfold get_mission; simpl; by rewrite lookup_insert_eq).
    reflexivity. }
  rewrite Happly. done.
Qed.


End Weather_properties.

(** ** The properties on the concrete configuration *)

(** The placeholder on the concrete configuration: reading before any
    assignment, and an assignment that validation rejects. *)
Lemma station_icao_unset_is_dummy_witness :
  station_icao xxxx_config blank_world = MkOutcome (inr "XXXX") blank_world [].
Proof.
  apply (station_icao_unset_is_dummy xxxx_config blank_world). reflexivity.
Defined.

Lemma station_icao_setter_atomic_witness :
  res (station_icao_setter xxxx_config four_letter_station demo_weather "TBILISI" blank_world)
    = inl (BadStation "TBILISI")
  /\ world (station_icao_setter xxxx_config four_letter_station demo_weather "TBILISI" blank_world)
    = blank_world
  /\ _station_icao (self (world
       (station_icao_setter xxxx_config four_letter_station demo_weather "TBILISI" blank_world)))
    = _station_icao (self blank_world)
  /\ station_name (self (world
       (station_icao_setter xxxx_config four_letter_station demo_weather "TBILISI" blank_world)))
    = station_name (self blank_world)
  /\ events (station_icao_setter xxxx_config four_letter_station demo_weather "TBILISI" blank_world)
    = [EvValidStation "TBILISI"].
Proof.
  apply (station_icao_setter_atomic xxxx_config four_letter_station demo_weather
           "TBILISI" blank_world (BadStation "TBILISI")).
  - discriminate.
  - reflexivity.
Defined.

Example is_cavok_satisfied : is_cavok demo_collaborators blank_weather = true.
Proof. reflexivity. Qed.

Example is_cavok_low_cloud :
  is_cavok demo_collaborators
    (MkWeather "test" "METAR" None None "" 1013 [MkCloud "BKN" 1200] 10000
       15 10 0 0 false [] 0 0 [] "") = false.
Proof. reflexivity. Qed.

Example is_cavok_low_visibility :
  is_cavok demo_collaborators
    (MkWeather "test" "METAR" None None "" 1013 [] 4000
       15 10 0 0 false [] 0 0 [] "") = false.
Proof. reflexivity. Qed.

Example is_cavok_rain :
  is_cavok demo_collaborators
    (MkWeather "test" "METAR" None None "" 1013 [MkCloud "FEW" 8000] 10000
       15 10 0 0 false [] 0 0 ["-RA"] "") = false.
Proof. reflexivity. Qed.

Example setter_known_station :
  station_icao_setter xxxx_config four_letter_station demo_weather "UGTB" blank_world
  = MkOutcome (inr tt)
      (set_self (with_station_name "Tbilisi Lochini"
                   (with_station_icao "UGTB" blank_weather)) blank_world)
      [EvValidStation "UGTB"; EvStationLookup "UGTB"].
Proof. reflexivity. Qed.

Example setter_placeholder_run :
  station_icao_setter xxxx_config four_letter_station demo_weather "XXXX" blank_world
  = MkOutcome (inr tt)
      (set_self (with_station_name "unknown station"
                   (with_station_icao "XXXX" blank_weather)) blank_world)
      [EvStationLookup "XXXX"].
Proof. reflexivity. Qed.

Lemma station_icao_setter_validates_first_witness :
  head (events (station_icao_setter xxxx_config four_letter_station demo_weather
                  "TBILISI" blank_world))
    = Some (EvValidStation "TBILISI")
  /\ station_icao_setter xxxx_config four_letter_station demo_weather "TBILISI" blank_world
    = MkOutcome (inl (BadStation "TBILISI")) blank_world [EvValidStation "TBILISI"]
  /\ station_icao_setter xxxx_config four_letter_station demo_weather "XXXX" blank_world
    = _set_station_name demo_weather (stored "XXXX" blank_world).
Proof.
  destruct (station_icao_setter_validates_first xxxx_config four_letter_station
              demo_weather "TBILISI" blank_world) as [Hother _].
  destruct Hother as [Hfirst Hraise]; [discriminate |].
  destruct (station_icao_setter_validates_first xxxx_config four_letter_station
              demo_weather "XXXX" blank_world) as [_ Hdummy].
  split; [exact Hfirst |].
  split; [apply Hraise; reflexivity | apply Hdummy; reflexivity].
Defined.

Lemma station_icao_setter_recomputes_name_witness :
  (station_name (self (world (station_icao_setter xxxx_config four_letter_station
                                demo_weather "UGTB" blank_world)))
   = Some "Tbilisi Lochini"
   /\ _station_icao (self (world (station_icao_setter xxxx_config four_letter_station
                                    demo_weather "UGTB" blank_world)))
      = Some "UGTB")
  /\ (station_name (self (world
         (station_icao_setter xxxx_config four_letter_station demo_weather "ZZZZ"
            (world (station_icao_setter xxxx_config four_letter_station
                      demo_weather "UGTB" blank_world)))))
      = Some "unknown station"
      /\ _station_icao (self (world
            (station_icao_setter xxxx_config four_letter_station demo_weather "ZZZZ"
               (world (station_icao_setter xxxx_config four_letter_station
                         demo_weather "UGTB" blank_world)))))
         = Some "ZZZZ").
Proof.
  destruct (station_icao_setter_recomputes_name xxxx_config four_letter_station
              demo_collaborators demo_renderers "UGTB" blank_world) as [_ Hknown].
  destruct Hknown as (Hicao & _ & Hfound & _); [reflexivity |].
  destruct (station_icao_setter_recomputes_name xxxx_config four_letter_station
              demo_collaborators demo_renderers "ZZZZ"
              (world (station_icao_setter xxxx_config four_letter_station
                        demo_weather "UGTB" blank_world))) as [_ Hunknown].
  destruct Hunknown as (Hicao' & _ & _ & Hmissing); [reflexivity |].
  split; split.
  - apply Hfound. reflexivity.
  - exact Hicao.
  - apply Hmissing. reflexivity.
  - exact Hicao'.
Defined.

Example apply_to_mission_dict_run :
  res (apply_to_mission_dict demo_collaborators 1%positive mission_world) = inr 2%positive
  /\ missions (world (apply_to_mission_dict demo_collaborators 1%positive mission_world))
       !! 2%positive
     = Some (MkMission {[ "visibility" := 10000; "qnh" := 1013 ]}
               {[ "theatre" := "Caucasus" ]}).
Proof. split; reflexivity. Qed.

Lemma apply_to_mission_dict_frame_witness :
  missions (world (apply_to_mission_dict demo_collaborators 1%positive mission_world))
    !! 1%positive = Some plain_mission.
Proof.
  apply (apply_to_mission_dict_frame demo_collaborators 1%positive plain_mission
           mission_world).
  reflexivity.
Defined.



Example apply_to_miz_run :
  res (apply_to_miz demo_collaborators "in.miz" "out.miz" true mission_world) = inr tt
  /\ files (world (apply_to_miz demo_collaborators "in.miz" "out.miz" true mission_world))
       !! "out.miz" = Some [Byte.x50; Byte.x4b; Byte.x03]
  /\ files (world (apply_to_miz demo_collaborators "in.miz" "out.miz" true mission_world))
       !! "in.miz" = Some [Byte.x50; Byte.x4b].
Proof. repeat split; reflexivity. Qed.

Example as_str_run :
  res (as_str demo_weather blank_world) = inr "Weather: test 00000KT 9999 15 10 Q1013 SKC  "
  /\ res (as_speech demo_weather blank_world)
     = inr ("Weather for test wind calm visibility ten kilometers temperature one five "
            +:+ "dew point one zero altimeter one zero one three sky clear  ").
Proof. split; reflexivity. Qed.

(** ** Assignments and reads of [station_icao] in sequence *)

Section Setter_sequences.

Variable config : Config.
Variable valid_station : string -> Exn + unit.
Variable cls : WeatherABC.

Lemma setter_accepted value s :
  value = dummy_icao_code config \/ valid_station value = inr tt ->
  res (station_icao_setter config valid_station cls value s)
  = res (_set_station_name cls (stored value s))
  /\ world (station_icao_setter config valid_station cls value s)
     = world (_set_station_name cls (stored value s)).
Proof.
  intros Hok.
  destruct (decide (value = dummy_icao_code config)) as [-> | Hne].
  - by rewrite setter_placeholder.
  - destruct Hok as [? | Hv]; [done |].
    by destruct (setter_validated config valid_station cls value s Hne Hv)
      as (-> & -> & _).
Qed.

Lemma station_icao_read config' s value :
  _station_icao (self s) = Some value ->
  station_icao config' s = MkOutcome (inr value) s [].
Proof.
  intros Hset. unfold station_icao.
  rewrite (bind_step get_self _ s (self s) s eq_refl).
  by rewrite Hset.
Qed.

(** X1: once a value has passed the setter's validation step (it is the
    placeholder or the validator accepts it), a read of [station_icao]
    returns that value, whatever placeholder is configured at the time of
    the read and whether or not the name update succeeded, as long as the
    subclass's [_set_station_name] does not itself overwrite
    [_station_icao]. *)
Theorem station_icao_set_then_get config' value s :
  (forall s', _station_icao (self (world (_set_station_name cls s')))
              = _station_icao (self s')) ->
  value = dummy_icao_code config \/ valid_station value = inr tt ->
  station_icao config' (world (station_icao_setter config valid_station cls value s))
  = MkOutcome (inr value)
      (world (station_icao_setter config valid_station cls value s)) [].
Proof.
  intros Hkeep Hok. apply station_icao_read.
  destruct (setter_accepted value s Hok) as [_ ->].
  by rewrite Hkeep.
Qed.

(** X2: the setter stores the code before it updates the name: when
    [_set_station_name] raises and leaves the instance alone, the setter
    raises the same error, yet the instance already carries the new code
    beside the station name it had before. *)
Theorem station_icao_setter_name_failure value s e evs :
  value = dummy_icao_code config \/ valid_station value = inr tt ->
  _set_station_name cls (stored value s) = MkOutcome (inl e) (stored value s) evs ->
  res (station_icao_setter config valid_station cls value s) = inl e
  /\ _station_icao (self (world (station_icao_setter config valid_station cls value s)))
     = Some value
  /\ station_name (self (world (station_icao_setter config valid_station cls value s)))
     = station_name (self s).
Proof.
  intros Hok Hfail.
  destruct (setter_accepted value s Hok) as [-> ->].
  by rewrite Hfail.
Qed.

(** X3: an assignment the validator rejects, made after an accepted one,
    raises and leaves the earlier code in place: the next read returns the
    value of the accepted assignment. *)
Theorem station_icao_rejected_after_accepted first second s e :
  (forall s', _station_icao (self (world (_set_station_name cls s')))
              = _station_icao (self s')) ->
  first = dummy_icao_code config \/ valid_station first = inr tt ->
  second <> dummy_icao_code config ->
  valid_station second = inl e ->
  res (station_icao_setter config valid_station cls second
         (world (station_icao_setter config valid_station cls first s))) = inl e
  /\ station_icao config
       (world (station_icao_setter config valid_station cls second
                 (world (station_icao_setter config valid_station cls first s))))
     = MkOutcome (inr first)
         (world (station_icao_setter config valid_station cls first s)) [].
Proof.
  intros Hkeep Hfirst Hne Hbad.
  rewrite (setter_rejected config valid_station cls second _ e Hne Hbad). simpl.
  split; [done |].
  apply station_icao_read.
  destruct (setter_accepted first s Hfirst) as [_ ->].
  by rewrite Hkeep.
Qed.

(** X4: one assignment calls the validator at most once: never for the
    placeholder and exactly once, with the assigned value, for any other
    value, provided the subclass's [_set_station_name] does not call it. *)
Theorem station_icao_setter_validates_once value s :
  (forall s', List.filter is_validation (events (_set_station_name cls s')) = []) ->
  List.filter is_validation
    (events (station_icao_setter config valid_station cls value s))
  = if bool_decide (value = dummy_icao_code config) then []
    else [EvValidStation value].
Proof.
  intros Hquiet.
  destruct (decide (value = dummy_icao_code config)) as [-> | Hne].
  - rewrite bool_decide_eq_true_2 by done.
    rewrite setter_placeholder. apply Hquiet.
  - rewrite bool_decide_eq_false_2 by done.
    destruct (valid_station value) as [e | []] eqn:Hv.
    + by rewrite (setter_rejected config valid_station cls value s e).
    + destruct (setter_validated config valid_station cls value s Hne Hv)
        as (_ & _ & ->).
      simpl. by rewrite Hquiet.
Qed.

End Setter_sequences.

(** ** [__repr__] *)

Lemma getattr_resolves obj attr_name :
  (exists v, getattr obj attr_name = inr v)
  <-> is_Some (instance_attrs obj !! attr_name) \/ is_Some (class_attrs obj !! attr_name).
Proof.
  unfold getattr.
  destruct (instance_attrs obj !! attr_name) as [v |].
  - split; [intros _; left | intros _]; eauto.
  - destruct (class_attrs obj !! attr_name) as [v |].
    + split; [intros _; right | intros _]; eauto.
    + split; [intros [v [=]] | intros [[v [=]] | [v [=]]]].
Qed.

Lemma getattr_missing obj attr_name :
  instance_attrs obj !! attr_name = None ->
  class_attrs obj !! attr_name = None ->
  getattr obj attr_name = inl (NoAttribute attr_name).
Proof. intros Hi Hc. unfold getattr. by rewrite Hi, Hc. Qed.

Lemma repr_attrs_shown obj names attrs :
  repr_attrs obj names = inr attrs ->
  attrs.*1 = List.filter is_public names
  /\ forall attr_name v, (attr_name, v) ∈ attrs ->
       is_public attr_name = true /\ getattr obj attr_name = inr v.
Proof.
  revert attrs. induction names as [| n names IH]; intros attrs; simpl.
  - intros [= <-]. split; [done |]. intros ? ? Hin. by apply not_elem_of_nil in Hin.
  - destruct (is_public n) eqn:Hpub; [| apply IH].
    destruct (getattr obj n) as [e | v] eqn:Hget; [done |].
    destruct (repr_attrs obj names) as [e | attrs'] eqn:Hrest; [done |].
    intros [= <-]. destruct (IH attrs' eq_refl) as [Hkeys Hvals].
    split; [rewrite fmap_cons; simpl; by f_equal |].
    intros n' v' Hin. apply elem_of_cons in Hin as [[= -> ->] | Hin]; auto.
Qed.

Lemma repr_attrs_succeeds obj names :
  (exists attrs, repr_attrs obj names = inr attrs)
  <-> forall attr_name, attr_name ∈ names -> is_public attr_name = true ->
        exists v, getattr obj attr_name = inr v.
Proof.
  induction names as [| n names IH]; simpl.
  - split; [intros _ ? Hin; by apply not_elem_of_nil in Hin | eauto].
  - destruct (is_public n) eqn:Hpub.
    + destruct (getattr obj n) as [e | v] eqn:Hget.
      * split; [intros [attrs [=]] |].
        intros Hall. destruct (Hall n) as [v Hv]; [left | done | congruence].
      * split.
        -- intros [attrs Hattrs] n' Hin Hpub'.
           apply elem_of_cons in Hin as [-> | Hin]; [eauto |].
           apply IH; [| done | done].
           destruct (repr_attrs obj names); [done | eauto].
        -- intros Hall.
           destruct (proj2 IH) as [attrs' ->]; [| eauto].
           intros n' Hin. apply Hall. by right.
    + rewrite IH. split.
      * intros Hall n' Hin Hpub'.
        apply elem_of_cons in Hin as [-> | Hin]; [congruence | by apply Hall].
      * intros Hall n' Hin. apply Hall. by right.
Qed.

Lemma repr_attrs_agree obj1 obj2 names :
  (forall attr_name, attr_name ∈ names -> is_public attr_name = true ->
     getattr obj1 attr_name = getattr obj2 attr_name) ->
  repr_attrs obj1 names = repr_attrs obj2 names.
Proof.
  induction names as [| n names IH]; intros Hsame; simpl; [done |].
  rewrite IH by (intros n' Hin; apply Hsame; by right).
  destruct (is_public n) eqn:Hpub; [| done].
  by rewrite (Hsame n) by (first [left | done]).
Qed.

Lemma repr_attrs_first_missing obj before attr_name after :
  (forall n, n ∈ before -> is_public n = true -> exists v, getattr obj n = inr v) ->
  is_public attr_name = true ->
  getattr obj attr_name = inl (NoAttribute attr_name) ->
  repr_attrs obj (before ++ attr_name :: after) = inl (NoAttribute attr_name).
Proof.
  intros Hbefore Hpub Hmiss.
  induction before as [| n before IH]; simpl.
  - by rewrite Hpub, Hmiss.
  - rewrite IH by (intros n' Hin; apply Hbefore; by right).
    destruct (is_public n) eqn:Hn; [| done].
    destruct (Hbefore n) as [v ->]; [left | done | done].
Qed.

(** X5: what [__repr__] hands to [pformat] is exactly the public annotated
    attributes, in the order of the annotations, each with the value
    [getattr] gives it; a name that starts with an underscore, such as
    [_station_icao], is never shown. *)
Theorem repr_shows_public_attributes pformat obj text :
  __repr__ pformat obj = inr text ->
  exists attrs,
    text = class_name obj +:+ "(" +:+ newline +:+ pformat attrs +:+ newline +:+ ")"
    /\ attrs.*1 = List.filter is_public (class_annotations obj)
    /\ (forall attr_name v, (attr_name, v) ∈ attrs ->
          is_public attr_name = true /\ getattr obj attr_name = inr v)
    /\ "_station_icao" ∉ attrs.*1.
Proof.
  unfold __repr__.
  destruct (repr_attrs obj (class_annotations obj)) as [e | attrs] eqn:Hattrs; [done |].
  intros [= <-]. exists attrs.
  destruct (repr_attrs_shown _ _ _ Hattrs) as [Hkeys Hvals].
  split; [done |]. split; [done |]. split; [done |].
  intros Hin. apply list_elem_of_fmap in Hin as [[n v] [Hn Hin]]. simpl in Hn. subst n.
  by destruct (Hvals _ _ Hin) as [Hpub _].
Qed.

Lemma repr_returns_iff pformat obj :
  (exists text, __repr__ pformat obj = inr text)
  <-> forall attr_name,
        attr_name ∈ class_annotations obj -> is_public attr_name = true ->
        exists v, getattr obj attr_name = inr v.
Proof.
  unfold __repr__. rewrite <- repr_attrs_succeeds.
  destruct (repr_attrs obj (class_annotations obj)) as [e | attrs].
  - split; [intros [? [=]] | intros [? [=]]].
  - split; eauto.
Qed.

(** X6: [__repr__] returns a string exactly when every public annotated
    attribute is held by the instance or by the class; private and
    unannotated attributes play no part. *)
Theorem repr_succeeds_iff pformat obj :
  (exists text, __repr__ pformat obj = inr text)
  <-> forall attr_name,
        attr_name ∈ class_annotations obj -> is_public attr_name = true ->
        is_Some (instance_attrs obj !! attr_name)
        \/ is_Some (class_attrs obj !! attr_name).
Proof.
  rewrite repr_returns_iff.
  split; intros Hall n Hin Hpub; apply getattr_resolves; by apply Hall.
Qed.

(** X7: [__repr__] raises [AttributeError] for the first public annotated
    attribute, in annotation order, that neither the instance nor the class
    holds. *)
Theorem repr_raises_first_missing pformat obj before attr_name after :
  class_annotations obj = before ++ attr_name :: after ->
  (forall n, n ∈ before -> is_public n = true ->
     is_Some (instance_attrs obj !! n) \/ is_Some (class_attrs obj !! n)) ->
  is_public attr_name = true ->
  instance_attrs obj !! attr_name = None ->
  class_attrs obj !! attr_name = None ->
  __repr__ pformat obj = inl (NoAttribute attr_name).
Proof.
  intros Hann Hbefore Hpub Hinst Hcls. unfold __repr__. rewrite Hann.
  rewrite repr_attrs_first_missing; [done | | done | by apply getattr_missing].
  intros n Hin Hn. apply getattr_resolves. by apply Hbefore.
Qed.

(** X8: what [__repr__] returns or raises depends only on the class
    name, the annotations and what [getattr] gives for the public
    annotated names: two instances that agree on these have the same
    [__repr__], whatever their private attributes (such as
    [_station_icao]) and their unannotated attributes hold. *)
Theorem repr_depends_on_public_attributes pformat obj1 obj2 :
  class_name obj1 = class_name obj2 ->
  class_annotations obj1 = class_annotations obj2 ->
  (forall attr_name,
     attr_name ∈ class_annotations obj1 -> is_public attr_name = true ->
     getattr obj1 attr_name = getattr obj2 attr_name) ->
  __repr__ pformat obj1 = __repr__ pformat obj2.
Proof.
  intros Hname Hann Hsame. unfold __repr__.
  rewrite <- Hann, <- Hname.
  by rewrite (repr_attrs_agree obj1 obj2 (class_annotations obj1) Hsame).
Qed.

(** *** The annotations of [WeatherABC] *)

Ltac annotation_cases H :=
  repeat (apply elem_of_cons in H as [-> | H]);
  [.. | by apply not_elem_of_nil in H].

Lemma WeatherABC_repr_iff pformat obj :
  class_annotations obj = WeatherABC_annotations ->
  class_attrs obj = WeatherABC_class_attrs ->
  (exists text, __repr__ pformat obj = inr text)
  <-> forall attr_name, attr_name ∈ WeatherABC_instance_public ->
        is_Some (instance_attrs obj !! attr_name).
Proof.
  intros Hann Hcls. rewrite repr_returns_iff, Hann.
  split.
  - intros Hall n Hin.
    assert (Hn : n ∈ WeatherABC_annotations /\ is_public n = true
                 /\ WeatherABC_class_attrs !! n = None).
    { unfold WeatherABC_instance_public in Hin.
      annotation_cases Hin; (split; [solve [repeat constructor] | by split]). }
    destruct Hn as (Hin' & Hpub & Hnone).
    pose proof (Hall n Hin' Hpub) as Hget.
    apply getattr_resolves in Hget as [Hi | [v Hv]]; [done |].
    rewrite Hcls, Hnone in Hv. discriminate.
  - intros Hall n Hin Hpub. apply getattr_resolves. rewrite Hcls.
    unfold WeatherABC_annotations in Hin.
    annotation_cases Hin;
      first [ discriminate Hpub
            | left; apply Hall; solve [repeat constructor]
            | right; by eexists ].
Qed.

(** X9: with the annotations of [WeatherABC], [__repr__] returns a string
    exactly when the instance holds all eighteen public attributes other
    than [wind_direction_is_variable]; that one falls back to the class
    default, and [_station_icao] is not needed. *)
Theorem WeatherABC_repr_requirements pformat obj :
  class_annotations obj = WeatherABC_annotations ->
  class_attrs obj = WeatherABC_class_attrs ->
  (exists text, __repr__ pformat obj = inr text)
  <-> forall attr_name, attr_name ∈ WeatherABC_instance_public ->
        is_Some (instance_attrs obj !! attr_name).
Proof. apply WeatherABC_repr_iff. Qed.



(** ** The further properties on the concrete configuration *)

Lemma Weather_set_station_name_keeps_icao config ext s :
  _station_icao (self (world (Weather_set_station_name config ext s)))
  = _station_icao (self s).
Proof.
  unfold Weather_set_station_name, station_icao, bind, get_self. simpl.
  by destruct (_station_icao (self s)) eqn:Hset.
Qed.

Lemma Weather_set_station_name_quiet config ext s :
  List.filter is_validation (events (Weather_set_station_name config ext s)) = [].
Proof.
  unfold Weather_set_station_name, station_icao, bind, get_self. simpl.
  by destruct (_station_icao (self s)).
Qed.

Lemma station_icao_set_then_get_witness :
  station_icao (MkConfig "ZZZZ")
    (world (station_icao_setter xxxx_config four_letter_station demo_weather
              "UGTB" blank_world))
  = MkOutcome (inr "UGTB")
      (world (station_icao_setter xxxx_config four_letter_station demo_weather
                "UGTB" blank_world)) [].
Proof.
  apply (station_icao_set_then_get xxxx_config four_letter_station demo_weather
           (MkConfig "ZZZZ") "UGTB" blank_world).
  - intros s'. apply Weather_set_station_name_keeps_icao.
  - right. reflexivity.
Defined.

Lemma station_icao_setter_name_failure_witness :
  res (station_icao_setter xxxx_config four_letter_station failing_lookup
         "UGTB" blank_world)
  = inl (BadStation "station database unavailable")
  /\ _station_icao (self (world
       (station_icao_setter xxxx_config four_letter_station failing_lookup
          "UGTB" blank_world)))
     = Some "UGTB"
  /\ station_name (self (world
       (station_icao_setter xxxx_config four_letter_station failing_lookup
          "UGTB" blank_world)))
     = station_name (self blank_world).
Proof.
  apply (station_icao_setter_name_failure xxxx_config four_letter_station
           failing_lookup "UGTB" blank_world
           (BadStation "station database unavailable") []).
  - right. reflexivity.
  - reflexivity.
Defined.

Lemma station_icao_rejected_after_accepted_witness :
  res (station_icao_setter xxxx_config four_letter_station demo_weather "TBILISI"
         (world (station_icao_setter xxxx_config four_letter_station demo_weather
                   "UGTB" blank_world)))
  = inl (BadStation "TBILISI")
  /\ station_icao xxxx_config
       (world (station_icao_setter xxxx_config four_letter_station demo_weather
                 "TBILISI"
                 (world (station_icao_setter xxxx_config four_letter_station
                           demo_weather "UGTB" blank_world))))
     = MkOutcome (inr "UGTB")
         (world (station_icao_setter xxxx_config four_letter_station demo_weather
                   "UGTB" blank_world)) [].
Proof.
  apply (station_icao_rejected_after_accepted xxxx_config four_letter_station
           demo_weather "UGTB" "TBILISI" blank_world (BadStation "TBILISI")).
  - intros s'. apply Weather_set_station_name_keeps_icao.
  - right. reflexivity.
  - discriminate.
  - reflexivity.
Defined.

Lemma station_icao_setter_validates_once_witness :
  List.filter is_validation
    (events (station_icao_setter xxxx_config four_letter_station demo_weather
               "UGTB" blank_world))
  = [EvValidStation "UGTB"]
  /\ List.filter is_validation
       (events (station_icao_setter xxxx_config four_letter_station demo_weather
                  "XXXX" blank_world))
     = [].
Proof.
  split.
  - apply (station_icao_setter_validates_once xxxx_config four_letter_station
             demo_weather "UGTB" blank_world).
    intros s'. apply Weather_set_station_name_quiet.
  - apply (station_icao_setter_validates_once xxxx_config four_letter_station
             demo_weather "XXXX" blank_world).
    intros s'. apply Weather_set_station_name_quiet.
Defined.

Example repr_named :
  __repr__ names_pformat named_object = inr named_repr
  /\ __repr__ names_pformat blank_object = inl (NoAttribute "station_name")
  /\ __repr__ names_pformat recoded_object = inr named_repr
  /\ __repr__ names_pformat bare_object
     = inr ("Weather(" +:+ newline +:+ newline +:+ ")").
Proof. repeat split; vm_compute; reflexivity. Qed.

Lemma repr_shows_public_attributes_witness :
  exists attrs,
    named_repr = class_name named_object +:+ "(" +:+ newline
                 +:+ names_pformat attrs +:+ newline +:+ ")"
    /\ attrs.*1 = List.filter is_public (class_annotations named_object)
    /\ (forall attr_name v, (attr_name, v) ∈ attrs ->
          is_public attr_name = true /\ getattr named_object attr_name = inr v)
    /\ "_station_icao" ∉ attrs.*1.
Proof.
  apply (repr_shows_public_attributes names_pformat named_object named_repr).
  vm_compute. reflexivity.
Defined.

Lemma repr_raises_first_missing_witness :
  __repr__ names_pformat blank_object = inl (NoAttribute "station_name").
Proof.
  apply (repr_raises_first_missing names_pformat blank_object
           ["source"; "source_type"; "_station_icao"] "station_name"
           (drop 4 WeatherABC_annotations)).
  - reflexivity.
  - intros n Hin Hpub. left.
    annotation_cases Hin;
      first [discriminate Hpub | eexists; vm_compute; reflexivity].
  - reflexivity.
  - reflexivity.
  - reflexivity.
Defined.

Lemma repr_depends_on_public_attributes_witness :
  __repr__ names_pformat recoded_object = __repr__ names_pformat named_object.
Proof.
  apply (repr_depends_on_public_attributes names_pformat recoded_object named_object).
  - reflexivity.
  - reflexivity.
  - intros n Hin Hpub. change (n ∈ WeatherABC_annotations) in Hin.
    unfold WeatherABC_annotations in Hin.
    annotation_cases Hin; first [discriminate Hpub | vm_compute; reflexivity].
Defined.

Lemma WeatherABC_repr_requirements_witness :
  (exists text, __repr__ names_pformat named_object = inr text)
  <-> forall attr_name, attr_name ∈ WeatherABC_instance_public ->
        is_Some (instance_attrs named_object !! attr_name).
Proof.
  apply (WeatherABC_repr_requirements names_pformat named_object);
    reflexivity.
Defined.

